(** * Shallow embedding of the libvirt Firecracker driver (src/src/fc)

    The driver is C code that mutates a domain object and talks to an
    external Firecracker process over HTTP on a unix socket.  We model it
    as a state-and-writer monad: the state is the domain object together
    with the history of everything observable so far, the writer output is
    the list of observable effects of one call (file system actions,
    process actions, HTTP requests) interleaved with the errors reported
    through [virReportError].  The outside world (file system, the spawned
    process, the Firecracker HTTP server) is an environment of oracles that
    see the history, so that the remote VMM may answer depending on what it
    has been sent before. *)

From Stdlib Require Import String Ascii List ZArith Bool Lia.
Import ListNotations.
Open Scope string_scope.
Open Scope Z_scope.

(** ** libvirt enums used by the driver *)

(** [virDomainState] *)
Inductive DomState :=
| VIR_DOMAIN_NOSTATE
| VIR_DOMAIN_RUNNING
| VIR_DOMAIN_BLOCKED
| VIR_DOMAIN_PAUSED
| VIR_DOMAIN_SHUTDOWN
| VIR_DOMAIN_SHUTOFF
| VIR_DOMAIN_CRASHED
| VIR_DOMAIN_PMSUSPENDED.

Definition DomState_eqb (a b : DomState) : bool :=
  match a, b with
  | VIR_DOMAIN_NOSTATE, VIR_DOMAIN_NOSTATE
  | VIR_DOMAIN_RUNNING, VIR_DOMAIN_RUNNING
  | VIR_DOMAIN_BLOCKED, VIR_DOMAIN_BLOCKED
  | VIR_DOMAIN_PAUSED, VIR_DOMAIN_PAUSED
  | VIR_DOMAIN_SHUTDOWN, VIR_DOMAIN_SHUTDOWN
  | VIR_DOMAIN_SHUTOFF, VIR_DOMAIN_SHUTOFF
  | VIR_DOMAIN_CRASHED, VIR_DOMAIN_CRASHED
  | VIR_DOMAIN_PMSUSPENDED, VIR_DOMAIN_PMSUSPENDED => true
  | _, _ => false
  end.

(** The state reasons the driver passes to [virDomainObjSetState]. *)
Inductive StateReason :=
| REASON_NONE                    (* the literal 0 of fcUpdateState *)
| VIR_DOMAIN_RUNNING_BOOTED
| VIR_DOMAIN_RUNNING_UNPAUSED
| VIR_DOMAIN_PAUSED_USER
| VIR_DOMAIN_SHUTOFF_UNKNOWN
| VIR_DOMAIN_SHUTOFF_SHUTDOWN
| VIR_DOMAIN_SHUTOFF_DESTROYED.

(** [virErrorNumber] values reported by the driver. *)
Inductive ErrCode :=
| VIR_ERR_INTERNAL_ERROR
| VIR_ERR_OPERATION_INVALID
| VIR_ERR_OPERATION_FAILED
| VIR_ERR_CONFIG_UNSUPPORTED
| VIR_ERR_INVALID_ARG
| VIR_ERR_PARSE_FAILED
| VIR_ERR_XML_INVALID_SCHEMA
| VIR_ERR_XML_DETAIL
| VIR_ERR_SYSTEM_ERROR.

(** [virDomainChrDeviceType] and [virDomainChrType] (the cases that matter). *)
Inductive ChrDeviceType :=
| VIR_DOMAIN_CHR_DEVICE_TYPE_PARALLEL
| VIR_DOMAIN_CHR_DEVICE_TYPE_SERIAL
| VIR_DOMAIN_CHR_DEVICE_TYPE_CONSOLE
| VIR_DOMAIN_CHR_DEVICE_TYPE_CHANNEL.

Inductive ChrType :=
| VIR_DOMAIN_CHR_TYPE_NULL
| VIR_DOMAIN_CHR_TYPE_PTY
| VIR_DOMAIN_CHR_TYPE_FILE
| VIR_DOMAIN_CHR_TYPE_UNIX
| VIR_DOMAIN_CHR_TYPE_OTHER.

(** ** The parts of [virDomainDef] the driver reads *)

Record DiskDef := mkDiskDef {
  disk_dst : string;          (* disk->dst, the <target dev=...> *)
  disk_src_path : string      (* disk->src->path *)
}.

Record ChrDef := mkChrDef {
  chr_deviceType : ChrDeviceType;
  chr_source_type : ChrType;  (* chr->source->type *)
  chr_target_port : Z         (* chr->target.port, a C int *)
}.

Record NetDef := mkNetDef {
  net_ifname : string;        (* host tap device *)
  net_guest_dev : string
}.

Record DomainDef := mkDomainDef {
  def_name : string;
  def_emulator : option string;
  def_mem_kib : Z;            (* virDomainDefGetMemoryInitial, KiB *)
  def_vcpus_max : Z;
  def_os_kernel : option string;
  def_os_cmdline : option string;
  def_os_root : option string;
  def_disks : list DiskDef;
  def_serials : list ChrDef;
  def_nconsoles : nat;
  def_nparallels : nat;
  def_nchannels : nat;
  def_nets : list NetDef
}.

(** ** [virCommand], [virFCDomainObjPrivate] and [virDomainObj] *)

(** Only the pid of a [virCommand] matters; [-1] is "not running". *)
Record Cmd := mkCmd { cmd_pid : Z }.

Record Priv := mkPriv {
  console_pty_path : option string;
  vm_dir : option string;
  socketpath : option string;
  fc_process : option Cmd
}.

(** [def->id] is kept in the object: it is the only mutable part of the
    definition the driver touches. *)
Record VmObj := mkVmObj {
  vm_def : DomainDef;
  vm_id : Z;
  vm_state : DomState;
  vm_reason : StateReason;
  vm_persistent : bool;
  vm_priv : Priv
}.

Definition set_state (s : DomState) (r : StateReason) (v : VmObj) : VmObj :=
  mkVmObj (vm_def v) (vm_id v) s r (vm_persistent v) (vm_priv v).

Definition set_id (i : Z) (v : VmObj) : VmObj :=
  mkVmObj (vm_def v) i (vm_state v) (vm_reason v) (vm_persistent v) (vm_priv v).

Definition set_priv (p : Priv) (v : VmObj) : VmObj :=
  mkVmObj (vm_def v) (vm_id v) (vm_state v) (vm_reason v) (vm_persistent v) p.

Definition set_console_pty (x : option string) (p : Priv) : Priv :=
  mkPriv x (vm_dir p) (socketpath p) (fc_process p).

Definition set_fc_process (x : option Cmd) (p : Priv) : Priv :=
  mkPriv (console_pty_path p) (vm_dir p) (socketpath p) x.

(** ** JSON values ([virJSONValue]) *)

Set Warnings "-register-all".

Inductive json :=
| JNull
| JBool (b : bool)
| JNum (n : Z)
| JStr (s : string)
| JArr (l : list json)
| JObj (kvs : list (string * json)).

(** [virJSONValueObjectGetString]: first member with the key, if it is a
    string; [NULL] for a non-object or a missing key or a non-string. *)
Definition virJSONValueObjectGetString (j : json) (key : string) : option string :=
  match j with
  | JObj kvs =>
      match find (fun kv => String.eqb (fst kv) key) kvs with
      | Some (_, JStr s) => Some s
      | _ => None
      end
  | _ => None
  end.

(** ** Observable effects *)

Inductive Event :=
| EvDeleteTree (dir : option string)
| EvMkdir (dir : option string)
| EvOpenFile (path : string)
| EvOpenPty
| EvSpawn (pid : Z)
| EvAbort (pid : Z)
| EvHttp (sock : option string) (method url : string) (body : json)
| EvGet (sock : option string) (url : string)
| EvWait
| EvRemove (path : option string)
| EvListRemove
| EvOpenStream (pty : option string).

Inductive Log :=
| LEv (e : Event)
| LErr (code : ErrCode) (msg : string).

(** Result of [curl_easy_perform] / [curl_easy_getinfo]. *)
Inductive CurlResult :=
| CurlPerformError
| CurlGetinfoError
| CurlResponse (code : Z).

(** The outside world.  Each oracle sees the history, including the
    request or action that is being answered. *)
Record Env := mkEnv {
  env_stateDir : string;
  env_delete_tree : list Log -> bool;
  env_mkdir : list Log -> bool;
  env_open : list Log -> bool;
  env_openpty : list Log -> option string;
  env_spawn : list Log -> option Z;
  env_socket_appears : list Log -> bool;
  env_update_perm : list Log -> bool;
  env_http : list Log -> CurlResult;
  env_get : list Log -> CurlResult * option json;
  env_wait : list Log -> bool;
  env_remove : list Log -> bool;
  env_open_stream : list Log -> bool
}.

(** ** The monad: state (domain object and history) and writer (effects) *)

Record World := mkWorld { w_vm : VmObj; w_hist : list Log }.

Definition M (A : Type) : Type := World -> A * World * list Log.

Definition ret {A} (a : A) : M A := fun w => (a, w, []).

Definition bind {A B} (m : M A) (k : A -> M B) : M B :=
  fun w => let '(a, w1, o1) := m w in
           let '(b, w2, o2) := k a w1 in (b, w2, (o1 ++ o2)%list).

Notation "x <- m ;; k" := (bind m (fun x => k))
  (at level 61, m at next level, right associativity).
Notation "m ;;; k" := (bind m (fun _ => k))
  (at level 61, right associativity).

Definition tell (l : Log) : M unit :=
  fun w => (tt, mkWorld (w_vm w) (w_hist w ++ [l])%list, [l]).

Definition emit (e : Event) : M unit := tell (LEv e).

(** [virReportError] *)
Definition virReportError (c : ErrCode) (msg : string) : M unit := tell (LErr c msg).

Definition history : M (list Log) := fun w => (w_hist w, w, []).

Definition get_vm : M VmObj := fun w => (w_vm w, w, []).

Definition modify_vm (f : VmObj -> VmObj) : M unit :=
  fun w => (tt, mkWorld (f (w_vm w)) (w_hist w), []).

(** Ask an oracle about the current history. *)
Definition ask {A} (o : list Log -> A) : M A := h <- history ;; ret (o h).

(** [virDomainObjSetState] / [virDomainObjGetState] / [virDomainObjIsActive] *)
Definition virDomainObjSetState (s : DomState) (r : StateReason) : M unit :=
  modify_vm (set_state s r).

Definition virDomainObjGetState : M DomState := v <- get_vm ;; ret (vm_state v).

Definition virDomainObjIsActive (v : VmObj) : bool := negb (vm_id v =? -1).

(** [virCommandAbort]: kills a started command and marks it not running. *)
Definition virCommandAbort (c : option Cmd) : M (option Cmd) :=
  match c with
  | None => ret None
  | Some k => if cmd_pid k =? -1 then ret (Some k)
              else emit (EvAbort (cmd_pid k)) ;;; ret (Some (mkCmd (-1)))
  end.

(** ** fc_monitor.c *)

Section Monitor.
Variable E : Env.

Definition URL_ROOT := "http://localhost".
Definition URL_CONFIG_PREBOOT := "machine-config".
Definition URL_CONFIG_KERNEL := "boot-source".
Definition URL_CONFIG_DISK := "drives".
Definition URL_CONFIG_NETWORK := "network-interfaces".
Definition URL_ACTIONS := "actions".
Definition URL_VM := "vm".

(** [isSuccessCode] *)
Definition isSuccessCode (response_code : Z) : bool :=
  (response_code =? 200) || (response_code =? 204).

(** [virFCMonitorCurlExec]: runs the prepared request, [-1] on a transport
    failure or a negative code (each reported), the HTTP code otherwise. *)
Definition virFCMonitorCurlExec (r : CurlResult) : M Z :=
  match r with
  | CurlPerformError =>
      virReportError VIR_ERR_INTERNAL_ERROR
        "curl_easy_perform() returned an error: %s (%d)" ;;; ret (-1)
  | CurlGetinfoError =>
      virReportError VIR_ERR_INTERNAL_ERROR
        "curl_easy_getinfo(CURLINFO_RESPONSE_CODE) returned an error: %s (%d)" ;;; ret (-1)
  | CurlResponse response_code =>
      if response_code <? 0 then
        virReportError VIR_ERR_INTERNAL_ERROR
          "curl_easy_getinfo(CURLINFO_RESPONSE_CODE) returned a negative response code" ;;;
        ret (-1)
      else ret response_code
  end.

(** [virFCJsonActionExec]: the url is [URL_ROOT "/" url_endpoint]. *)
Definition virFCJsonActionExec (unix_path : option string) (url_endpoint http_action : string)
           (jsonObj : json) : M Z :=
  emit (EvHttp unix_path http_action (URL_ROOT ++ "/" ++ url_endpoint) jsonObj) ;;;
  r <- ask (env_http E) ;;
  virFCMonitorCurlExec r.

Definition ret_of_code (response_code : Z) : Z :=
  if isSuccessCode response_code then 0 else -1.


(** [virFCMonitorSetKernel]; appending a [NULL] string member fails, so a
    missing kernel path leaves its member out. *)
Definition virFCMonitorSetKernel (sock : option string) (kernel_path : option string)
           (kernel_cmdline : string) : M Z :=
  let kernel_member :=
    match kernel_path with Some k => [("kernel_image_path", JStr k)] | None => [] end in
  response_code <- virFCJsonActionExec sock URL_CONFIG_KERNEL "PUT"
    (JObj (kernel_member ++ [("boot_args", JStr kernel_cmdline)])%list) ;;
  ret (ret_of_code response_code).

(** [virFCMonitorSetDisk]: note the endpoint already starts with a slash. *)
Definition virFCMonitorSetDisk (sock : option string) (drive_id disk_path_host : string)
           (is_root_device is_read_only : bool) : M Z :=
  let url := "/" ++ URL_CONFIG_DISK ++ "/" ++ drive_id in
  response_code <- virFCJsonActionExec sock url "PUT"
    (JObj [("drive_id", JStr drive_id); ("path_on_host", JStr disk_path_host);
           ("is_root_device", JBool is_root_device); ("is_read_only", JBool is_read_only)]) ;;
  ret (ret_of_code response_code).

(** [virFCMonitorStartVM] *)
Definition virFCMonitorStartVM (sock : option string) : M Z :=
  response_code <- virFCJsonActionExec sock URL_ACTIONS "PUT"
    (JObj [("action_type", JStr "InstanceStart")]) ;;
  ret (ret_of_code response_code).

(** [virFCMonitorShutdownVM] *)
Definition virFCMonitorShutdownVM (sock : option string) : M Z :=
  response_code <- virFCJsonActionExec sock URL_ACTIONS "PUT"
    (JObj [("action_type", JStr "SendCtrlAltDel")]) ;;
  ret (ret_of_code response_code).

(** [virFCMonitorChangeState] *)
Definition virFCMonitorChangeState (sock : option string) (state : string) : M Z :=
  if negb (String.eqb state "Paused") && negb (String.eqb state "Resumed") then
    virReportError VIR_ERR_INVALID_ARG
      "Domain can not transition into invalid state '%s'" ;;;
    ret (-1)
  else
    response_code <- virFCJsonActionExec sock URL_VM "PATCH" (JObj [("state", JStr state)]) ;;
    ret (ret_of_code response_code).

(** [virFCMonitorSetNetwork] (defined in the source, never called). *)
Definition virFCMonitorSetNetwork (sock : option string)
           (iface_id guest_mac host_dev_name : string) (allow_mmds_requests : bool) : M Z :=
  let url := "/" ++ URL_CONFIG_NETWORK ++ "/" ++ iface_id in
  response_code <- virFCJsonActionExec sock url "PUT"
    (JObj [("allow_mmds_requests", JBool allow_mmds_requests); ("guest_mac", JStr guest_mac);
           ("host_dev_name", JStr host_dev_name); ("iface_id", JStr iface_id)]) ;;
  ret (ret_of_code response_code).

(** [fcInstanceInfoToDomainState]; [None] is a body that does not parse
    as JSON. *)
Definition fcInstanceInfoToDomainState (httpResponse : option json) : M DomState :=
  match httpResponse with
  | None =>
      virReportError VIR_ERR_PARSE_FAILED "Failed to parse http response as json" ;;;
      ret VIR_DOMAIN_NOSTATE
  | Some jsonObj =>
      match virJSONValueObjectGetString jsonObj "state" with
      | None =>
          virReportError VIR_ERR_PARSE_FAILED
            "Failed to parse key-value pair in json for finding the vm state" ;;;
          ret VIR_DOMAIN_NOSTATE
      | Some state =>
          if String.eqb state "Running" then ret VIR_DOMAIN_RUNNING
          else if String.eqb state "Paused" then ret VIR_DOMAIN_PAUSED
          else if String.eqb state "Not started" then ret VIR_DOMAIN_SHUTOFF
          else virReportError VIR_ERR_INTERNAL_ERROR "Could not find the state of the vm" ;;;
               ret VIR_DOMAIN_NOSTATE
      end
  end.

Definition status_url := URL_ROOT ++ "/".

(** [virFCMonitorGetStatus] *)
Definition virFCMonitorGetStatus (sock : option string) : M DomState :=
  emit (EvGet sock status_url) ;;;
  reply <- ask (env_get E) ;;
  let '(r, body) := reply in
  response_code <- virFCMonitorCurlExec r ;;
  if negb (isSuccessCode response_code) then ret VIR_DOMAIN_NOSTATE
  else fcInstanceInfoToDomainState body.

End Monitor.

(** ** fc_domain.c *)

(** Decimal printing of a C [int], as [%d] does. *)
Definition digit_char (d : Z) : ascii := ascii_of_nat (48 + Z.to_nat d).

Fixpoint digits_of (fuel : nat) (n : Z) (acc : string) : string :=
  match fuel with
  | O => acc
  | S f => if n <? 10 then String (digit_char n) acc
           else digits_of f (n / 10) (String (digit_char (n mod 10)) acc)
  end.

Definition string_of_Z (z : Z) : string :=
  if z <? 0 then "-" ++ digits_of 20 (- z) "" else digits_of 20 z "".

(** A C string argument printed with [%s]. *)
Definition cstr (o : option string) : string :=
  match o with Some s => s | None => "(null)" end.

Fixpoint spaces (n : nat) : string :=
  match n with O => "" | S k => String " " (spaces k) end.

Definition MAX_PTY_NAME_LENGTH : nat := 256.

(** [getRootFSDiskDevice] *)
Definition getRootFSDiskDevice (def : DomainDef) : option DiskDef :=
  match def_os_root def with
  | None => None
  | Some root => find (fun d => String.eqb root (disk_dst d)) (def_disks def)
  end.

(** [c_isspace] and [virStringIsEmpty] *)
Definition c_isspace (c : ascii) : bool :=
  let n := nat_of_ascii c in
  (n =? 32)%nat || ((9 <=? n)%nat && (n <=? 13)%nat).

Fixpoint all_spaces (s : string) : bool :=
  match s with
  | EmptyString => true
  | String c r => c_isspace c && all_spaces r
  end.

Definition virStringIsEmpty (s : option string) : bool :=
  match s with None => true | Some str => all_spaces str end.

(** [virXMLCheckIllegalChars(..., "\n")] succeeds iff no newline. *)
Fixpoint has_char (c : ascii) (s : string) : bool :=
  match s with
  | EmptyString => false
  | String d r => Ascii.eqb c d || has_char c r
  end.

Definition newline : ascii := ascii_of_nat 10.

(** [virFCDomainDefPostParseBasic]; [fc_in_path] is the result of
    [g_find_program_in_path(FC_CMD)].  Returns the C return value, the
    definition (whose emulator may have been filled in) and the reported
    error, if any. *)
Definition virFCDomainDefPostParseBasic (fc_in_path : option string) (def0 : DomainDef)
  : Z * DomainDef * option (ErrCode * string) :=
  if has_char newline (def_name def0) then
    (-1, def0, Some (VIR_ERR_XML_DETAIL, "name contains illegal character"))
  else
  let def_emul :=
    match def_emulator def0 with
    | Some _ => Some def0
    | None =>
        match fc_in_path with
        | None => None
        | Some p =>
            Some (mkDomainDef (def_name def0) (Some p) (def_mem_kib def0) (def_vcpus_max def0)
                    (def_os_kernel def0) (def_os_cmdline def0) (def_os_root def0)
                    (def_disks def0) (def_serials def0) (def_nconsoles def0)
                    (def_nparallels def0) (def_nchannels def0) (def_nets def0))
        end
    end in
  match def_emul with
  | None => (-1, def0, Some (VIR_ERR_CONFIG_UNSUPPORTED, "No emulator found for firecracker"))
  | Some def =>
  if virStringIsEmpty (def_os_kernel def) then
    (-1, def, Some (VIR_ERR_XML_INVALID_SCHEMA,
                    "Kernel image path not existent or there are only whitespaces"))
  else if virStringIsEmpty (def_os_root def) then
    (-1, def, Some (VIR_ERR_XML_DETAIL, "Missing root tag in the os description"))
  else if (0 <? def_nparallels def)%nat then
    (-1, def, Some (VIR_ERR_XML_DETAIL, "Firecracker doesn't support parallel devices"))
  else if (0 <? def_nconsoles def)%nat then
    (-1, def, Some (VIR_ERR_XML_DETAIL,
                    "Firecracker doesn't support console devices. A serial device can be configured instead."))
  else if (0 <? def_nchannels def)%nat then
    (-1, def, Some (VIR_ERR_XML_DETAIL, "Firecracker doesn't support channel devices"))
  else if (1 <? length (def_serials def))%nat then
    (-1, def, Some (VIR_ERR_XML_DETAIL, "Firecracker supports maximum one serial device"))
  else
  match def_serials def with
  | [s] =>
      match chr_deviceType s with
      | VIR_DOMAIN_CHR_DEVICE_TYPE_SERIAL =>
          match chr_source_type s with
          | VIR_DOMAIN_CHR_TYPE_PTY =>
              match getRootFSDiskDevice def with
              | None => (-1, def, Some (VIR_ERR_XML_DETAIL, "There is no disk device with target '%s'"))
              | Some _ => (0, def, None)
              end
          | _ => (-1, def, Some (VIR_ERR_XML_DETAIL,
                                 "The type of the serial device needs to be a pseudo terminal ('pty')"))
          end
      | _ => (-1, def, Some (VIR_ERR_XML_DETAIL,
                             "For character devices, Firecracker supports only serial"))
      end
  | _ =>
      match getRootFSDiskDevice def with
      | None => (-1, def, Some (VIR_ERR_XML_DETAIL, "There is no disk device with target '%s'"))
      | Some _ => (0, def, None)
      end
  end
  end.

(** [fcAddAdditionalCmdlineArgs]: [g_string_new(NULL)] is the empty string. *)
Definition fcAddAdditionalCmdlineArgs (def : DomainDef) : string :=
  let cmdline := match def_os_cmdline def with Some s => s | None => "" end in
  match def_serials def with
  | s :: _ => cmdline ++ " console=ttyS" ++ string_of_Z (chr_target_port s)
  | [] => cmdline
  end.

Section Driver.
Variable E : Env.

Definition get_priv : M Priv := v <- get_vm ;; ret (vm_priv v).

Definition modify_priv (f : Priv -> Priv) : M unit :=
  modify_vm (fun v => set_priv (f (vm_priv v)) v).

(** [fcPopulatePrivateData] *)
Definition fcPopulatePrivateData : M unit :=
  v <- get_vm ;;
  let dir := env_stateDir E ++ "/" ++ def_name (vm_def v) in
  modify_priv (fun p => mkPriv (console_pty_path p) (Some dir)
                               (Some (dir ++ "/firecracker-lv.socket")) (fc_process p)).

(** [fcUpdateState]: the new state is stored before it is checked. *)
Definition fcUpdateState : M Z :=
  p <- get_priv ;;
  domainState <- virFCMonitorGetStatus E (socketpath p) ;;
  virDomainObjSetState domainState REASON_NONE ;;;
  if DomState_eqb domainState VIR_DOMAIN_NOSTATE then ret (-1) else ret 0.

(** [fcWaitUntilExists]: the capped back-off polling loop is abstracted
    by the oracle that tells whether the socket appeared in time. *)
Definition fcWaitUntilExists (path : option string) : M Z :=
  ok <- ask (env_socket_appears E) ;;
  ret (if ok then 0 else -1).

(** [open(path, O_CREAT | O_WRONLY | O_APPEND, 0666)] succeeding or not. *)
Definition open_file (path : string) : M bool :=
  emit (EvOpenFile path) ;;; ask (env_open E).

(** [fcStartVMProcess].  [cmd] is the local [virCommand *], [NULL] until
    [virCommandNew]; the [error] label kills it and forgets the process. *)
Definition fcStartVMProcess_error (cmd : option Cmd) : M Z :=
  modify_vm (set_id (-1)) ;;;
  _ <- virCommandAbort cmd ;;
  modify_priv (set_fc_process None) ;;;
  ret (-1).

Definition fcStartVMProcess : M Z :=
  v <- get_vm ;;
  p <- get_priv ;;
  let out_err_file := cstr (vm_dir p) ++ "/fc_err.log" in
  let out_std_file := cstr (vm_dir p) ++ "/fc_std.log" in
  let open_serial_console := (0 <? length (def_serials (vm_def v)))%nat in
  err_ok <- open_file out_err_file ;;
  if negb err_ok then
    virReportError VIR_ERR_INTERNAL_ERROR
      "Failed to open() the file for stderr output: %d, (%s)" ;;;
    fcStartVMProcess_error None
  else
  pty_ok <-
    (if open_serial_console then
       modify_priv (set_console_pty (Some (spaces MAX_PTY_NAME_LENGTH))) ;;;
       emit EvOpenPty ;;;
       pty <- ask (env_openpty E) ;;
       match pty with
       | Some name => modify_priv (set_console_pty (Some name)) ;;; ret true
       | None =>
           virReportError VIR_ERR_INTERNAL_ERROR "Couldn't create PTY for console access" ;;;
           ret false
       end
     else modify_priv (set_console_pty None) ;;; ret true) ;;
  if negb pty_ok then fcStartVMProcess_error None
  else
  let cmd := Some (mkCmd (-1)) in
  std_ok <- (if open_serial_console then ret true else open_file out_std_file) ;;
  if negb std_ok then
    virReportError VIR_ERR_INTERNAL_ERROR
      "Failed to open() the file for stdout output: %d, (%s)" ;;;
    fcStartVMProcess_error cmd
  else
  spawned <- ask (env_spawn E) ;;
  match spawned with
  | None =>
      virReportError VIR_ERR_INTERNAL_ERROR
        "virCommandRunAsync() returned a negative response code" ;;;
      fcStartVMProcess_error cmd
  | Some fc_pid =>
      emit (EvSpawn fc_pid) ;;;
      let cmd := Some (mkCmd fc_pid) in
      waited <- fcWaitUntilExists (socketpath p) ;;
      if waited <? 0 then
        virReportError VIR_ERR_INTERNAL_ERROR
          "Socket file for the vm couldn't be verified to exist" ;;;
        fcStartVMProcess_error cmd
      else
        perm_ok <- ask (env_update_perm E) ;;
        (if perm_ok then ret tt
         else virReportError VIR_ERR_INTERNAL_ERROR "cannot modify permissions for the socket") ;;;
        modify_vm (set_id fc_pid) ;;;
        modify_priv (set_fc_process cmd) ;;;
        ret 0
  end.

(** [fcConfigAndStartVM] *)
Definition fcConfigAndStartVM : M Z :=
  v <- get_vm ;;
  p <- get_priv ;;
  let computed_cmdline := fcAddAdditionalCmdlineArgs (vm_def v) in
  rk <- virFCMonitorSetKernel E (socketpath p) (def_os_kernel (vm_def v)) computed_cmdline ;;
  if rk <? 0 then
    virReportError VIR_ERR_INTERNAL_ERROR
      "Firecracker API call failed setting kernel and cmdline" ;;; ret (-1)
  else
  match getRootFSDiskDevice (vm_def v) with
  | None =>
      virReportError VIR_ERR_CONFIG_UNSUPPORTED
        "Did not find a disk device with target destination '%s'" ;;; ret (-1)
  | Some root_device =>
      rd <- virFCMonitorSetDisk E (socketpath p) "rootfs" (disk_src_path root_device) true false ;;
      if rd <? 0 then
        virReportError VIR_ERR_INTERNAL_ERROR "Firecracker API call failed setting rootfs" ;;;
        ret (-1)
      else
        rs <- virFCMonitorStartVM E (socketpath p) ;;
        if rs <? 0 then
          virReportError VIR_ERR_INTERNAL_ERROR "Firecracker API call failed starting the vm" ;;;
          ret (-1)
        else ret 0
  end.

(** [fcStopVM] *)
Definition fcStopVM (reason : StateReason) : M Z :=
  p <- get_priv ;;
  r <- virFCMonitorShutdownVM E (socketpath p) ;;
  if r <? 0 then
    virReportError VIR_ERR_OPERATION_FAILED
      "Firecracker API call failed or received an error for Shutting down the vm" ;;;
    ret (-1)
  else
    virDomainObjSetState VIR_DOMAIN_SHUTOFF reason ;;;
    modify_vm (set_id (-1)) ;;;
    ret 0.

End Driver.

(** ** fc_driver.c

    Each driver entry point is modelled from the point where the domain
    object has been looked up and locked, the flags checked ([flags = 0])
    and the access-control check passed: those steps belong to the
    surrounding driver framework. *)

Section Ops.
Variable E : Env.

(** [fcDeleteVMDir] *)
Definition fcDeleteVMDir : M Z :=
  p <- get_priv ;;
  emit (EvDeleteTree (vm_dir p)) ;;;
  ok <- ask (env_delete_tree E) ;;
  if ok then ret 0
  else virReportError VIR_ERR_INTERNAL_ERROR "Could not delete directory: %s" ;;; ret (-1).

(** [fcCreateVMDir] *)
Definition fcCreateVMDir : M Z :=
  p <- get_priv ;;
  emit (EvMkdir (vm_dir p)) ;;;
  ok <- ask (env_mkdir E) ;;
  if ok then ret 0
  else virReportError VIR_ERR_SYSTEM_ERROR "Cannot create vm directory: '%s'" ;;; ret (-1).

(** [fcRecreateVMDir] *)
Definition fcRecreateVMDir : M Z :=
  d <- fcDeleteVMDir ;;
  if d <? 0 then ret (-1)
  else c <- fcCreateVMDir ;;
       if c <? 0 then ret (-1) else ret 0.

(** [fcFirecrackerCleanup] *)
Definition fcFirecrackerCleanup : M Z :=
  p <- get_priv ;;
  emit (EvRemove (socketpath p)) ;;;
  ok <- ask (env_remove E) ;;
  ret (if ok then 0 else -1).



(** [fcDomainGetState] *)
Definition fcDomainGetState : M DomState :=
  u <- fcUpdateState E ;;
  (if u <? 0 then virDomainObjSetState VIR_DOMAIN_SHUTOFF VIR_DOMAIN_SHUTOFF_UNKNOWN
   else ret tt) ;;;
  virDomainObjGetState.

(** The [error] label of [fcDomainCreateWithFlags]. *)
Definition fcDomainCreate_error : M Z :=
  modify_vm (set_id (-1)) ;;;
  p <- get_priv ;;
  c <- virCommandAbort (fc_process p) ;;
  modify_priv (set_fc_process c) ;;;
  _ <- fcDeleteVMDir ;;
  ret (-1).

(** [fcDomainCreateWithFlags] *)
Definition fcDomainCreateWithFlags : M Z :=
  v <- get_vm ;;
  if virDomainObjIsActive v then
    virReportError VIR_ERR_OPERATION_INVALID "Domain is already running" ;;;
    fcDomainCreate_error
  else
  fcPopulatePrivateData E ;;;
  d <- fcRecreateVMDir ;;
  if d <? 0 then
    virReportError VIR_ERR_INTERNAL_ERROR "Couldn't create vm directory: %s" ;;;
    fcDomainCreate_error
  else
  s <- fcStartVMProcess E ;;
  if s <? 0 then fcDomainCreate_error
  else
  c <- fcConfigAndStartVM E ;;
  if c <? 0 then
    virReportError VIR_ERR_INTERNAL_ERROR "Failed starting the vm" ;;;
    fcDomainCreate_error
  else
    virDomainObjSetState VIR_DOMAIN_RUNNING VIR_DOMAIN_RUNNING_BOOTED ;;;
    ret 0.

(** [virCommandWait]: a [NULL] command is an error. *)
Definition virCommandWait (c : option Cmd) : M Z :=
  match c with
  | None => ret (-1)
  | Some _ => emit EvWait ;;; ok <- ask (env_wait E) ;; ret (if ok then 0 else -1)
  end.

(** [fcDomainShutdownFlags] *)
Definition fcDomainShutdownFlags : M Z :=
  vmState <- virDomainObjGetState ;;
  u <- fcUpdateState E ;;
  if (u <? 0) && negb (DomState_eqb vmState VIR_DOMAIN_SHUTOFF) then
    virReportError VIR_ERR_INTERNAL_ERROR "Failed to refresh the state of vm" ;;; ret (-1)
  else
  st <- virDomainObjGetState ;;
  if negb (DomState_eqb st VIR_DOMAIN_RUNNING) then
    virReportError VIR_ERR_OPERATION_INVALID "Domain is not in running state" ;;; ret (-1)
  else
  r <- fcStopVM E VIR_DOMAIN_SHUTOFF_SHUTDOWN ;;
  if r <? 0 then ret (-1)
  else
  v <- get_vm ;;
  (if vm_persistent v then ret tt else emit EvListRemove) ;;;
  p <- get_priv ;;
  w <- virCommandWait (fc_process p) ;;
  if w <? 0 then
    virReportError VIR_ERR_INTERNAL_ERROR
      "Error waiting for child firecracker process to be reaped" ;;; ret (-1)
  else
    _ <- fcFirecrackerCleanup ;;
    modify_priv (set_fc_process None) ;;;
    ret 0.

(** [fcDomainDestroyFlags] without [VIR_DOMAIN_DESTROY_GRACEFUL] *)
Definition fcDomainDestroyFlags : M Z :=
  st <- virDomainObjGetState ;;
  if negb (DomState_eqb st VIR_DOMAIN_RUNNING) then
    virReportError VIR_ERR_OPERATION_INVALID "Domain is not running" ;;; ret (-1)
  else
    p <- get_priv ;;
    c <- virCommandAbort (fc_process p) ;;
    modify_priv (set_fc_process c) ;;;
    _ <- fcFirecrackerCleanup ;;
    modify_vm (set_id (-1)) ;;;
    virDomainObjSetState VIR_DOMAIN_SHUTOFF VIR_DOMAIN_SHUTOFF_DESTROYED ;;;
    ret 0.

(** [fcDomainSuspend] *)
Definition fcDomainSuspend : M Z :=
  u <- fcUpdateState E ;;
  if u <? 0 then
    virReportError VIR_ERR_INTERNAL_ERROR "Failed to refresh the state of vm" ;;; ret (-1)
  else
  st <- virDomainObjGetState ;;
  if negb (DomState_eqb st VIR_DOMAIN_RUNNING) then
    virReportError VIR_ERR_OPERATION_INVALID "Domain is not in running state" ;;; ret (-1)
  else
  p <- get_priv ;;
  r <- virFCMonitorChangeState E (socketpath p) "Paused" ;;
  if r <? 0 then
    virReportError VIR_ERR_INTERNAL_ERROR "Firecracker API call failed to suspend VM" ;;; ret (-1)
  else
    virDomainObjSetState VIR_DOMAIN_PAUSED VIR_DOMAIN_PAUSED_USER ;;; ret 0.

(** [fcDomainResume] *)
Definition fcDomainResume : M Z :=
  u <- fcUpdateState E ;;
  if u <? 0 then
    virReportError VIR_ERR_INTERNAL_ERROR "Failed to refresh the state of vm" ;;; ret (-1)
  else
  st <- virDomainObjGetState ;;
  if negb (DomState_eqb st VIR_DOMAIN_PAUSED) then
    virReportError VIR_ERR_OPERATION_INVALID "Domain is not in paused state" ;;; ret (-1)
  else
  p <- get_priv ;;
  r <- virFCMonitorChangeState E (socketpath p) "Resumed" ;;
  if r <? 0 then
    virReportError VIR_ERR_INTERNAL_ERROR "Firecracker API call failed to resume VM" ;;; ret (-1)
  else
    virDomainObjSetState VIR_DOMAIN_RUNNING VIR_DOMAIN_RUNNING_UNPAUSED ;;; ret 0.

End Ops.

(** ** More of fc_driver.c *)

Definition set_persistent (b : bool) (v : VmObj) : VmObj :=
  mkVmObj (vm_def v) (vm_id v) (vm_state v) (vm_reason v) b (vm_priv v).

(** [fcDomainIsActive] *)
Definition fcDomainIsActive : M Z :=
  v <- get_vm ;; ret (if virDomainObjIsActive v then 1 else 0).

(** [fcDomainUndefineFlags]: [virDomainObjListRemove] is the [EvListRemove]
    effect. *)
Definition fcDomainUndefineFlags : M Z :=
  v <- get_vm ;;
  if negb (vm_persistent v) then
    virReportError VIR_ERR_OPERATION_INVALID "Cannot undefine transient domain" ;;; ret (-1)
  else
    (if virDomainObjIsActive v then modify_vm (set_persistent false) else emit EvListRemove) ;;;
    ret 0.


(** ** Observations on the effect log *)

Definition errors_of (out : list Log) : list (ErrCode * string) :=
  flat_map (fun l => match l with LErr c m => [(c, m)] | LEv _ => [] end) out.

(** The error left as the thread's last error by a call. *)
Definition last_error (out : list Log) : option (ErrCode * string) :=
  last (map Some (errors_of out)) None.

(** The HTTP requests (method and url) a call sent, in order. *)
Definition http_requests (out : list Log) : list (string * string) :=
  flat_map (fun l => match l with
                     | LEv (EvHttp _ meth url _) => [(meth, url)]
                     | _ => [] end) out.

(** Everything sent to the VMM: requests with bodies and status queries. *)
Definition sent_to_vmm (out : list Log) : list Event :=
  flat_map (fun l => match l with
                     | LEv (EvHttp s m u b) => [EvHttp s m u b]
                     | LEv (EvGet s u) => [EvGet s u]
                     | _ => [] end) out.

Definition val_of {A} (r : A * World * list Log) : A := fst (fst r).
Definition world_of {A} (r : A * World * list Log) : World := snd (fst r).
Definition out_of {A} (r : A * World * list Log) : list Log := snd r.

(** ** Concrete inputs *)

(** The guest "d1" of the spec's scenario: 128 MiB, one vcpu, kernel "/k",
    cmdline "panic=1", root "vda", one disk, one pty serial on port 0. *)
Definition d1 : DomainDef :=
  mkDomainDef "d1" (Some "/usr/bin/firecracker") (128 * 1024) 1 (Some "/k") (Some "panic=1")
    (Some "vda") [mkDiskDef "vda" "/img.ext4"]
    [mkChrDef VIR_DOMAIN_CHR_DEVICE_TYPE_SERIAL VIR_DOMAIN_CHR_TYPE_PTY 0]
    0 0 0 [].

Definition priv0 : Priv := mkPriv None None None None.

(** A defined, never started guest. *)
Definition defined_vm (def : DomainDef) : VmObj :=
  mkVmObj def (-1) VIR_DOMAIN_SHUTOFF VIR_DOMAIN_SHUTOFF_UNKNOWN true priv0.

Definition world0 (v : VmObj) : World := mkWorld v [].

Definition reply_state (s : string) : CurlResult * option json :=
  (CurlResponse 200, Some (JObj [("state", JStr s)])).

(** A world in which every file, process and HTTP action succeeds and the
    VMM reports [st] on a status query. *)
Definition env_all_ok (st : string) : Env :=
  mkEnv "/run/libvirt/fc" (fun _ => true) (fun _ => true) (fun _ => true)
    (fun _ => Some "/dev/pts/3") (fun _ => Some 4242) (fun _ => true) (fun _ => true)
    (fun _ => CurlResponse 204) (fun _ => reply_state st)
    (fun _ => true) (fun _ => true) (fun _ => true).

Definition start_calls : list (string * string) :=
  [("PUT", URL_ROOT ++ "/" ++ URL_CONFIG_KERNEL);
   ("PUT", URL_ROOT ++ "/" ++ "/" ++ URL_CONFIG_DISK ++ "/rootfs");
   ("PUT", URL_ROOT ++ "/" ++ URL_ACTIONS)].

(** Environments that differ from a given one in a single answer. *)
Definition env_with_http (E0 : Env) (c : CurlResult) : Env :=
  mkEnv (env_stateDir E0) (env_delete_tree E0) (env_mkdir E0) (env_open E0)
    (env_openpty E0) (env_spawn E0) (env_socket_appears E0) (env_update_perm E0)
    (fun _ => c) (env_get E0) (env_wait E0) (env_remove E0) (env_open_stream E0).

Definition env_with_get (E0 : Env) (rep : CurlResult * option json) : Env :=
  mkEnv (env_stateDir E0) (env_delete_tree E0) (env_mkdir E0) (env_open E0)
    (env_openpty E0) (env_spawn E0) (env_socket_appears E0) (env_update_perm E0)
    (env_http E0) (fun _ => rep) (env_wait E0) (env_remove E0) (env_open_stream E0).

Definition env_with_socket (E0 : Env) (appears : bool) : Env :=
  mkEnv (env_stateDir E0) (env_delete_tree E0) (env_mkdir E0) (env_open E0)
    (env_openpty E0) (env_spawn E0) (fun _ => appears) (env_update_perm E0)
    (env_http E0) (env_get E0) (env_wait E0) (env_remove E0) (env_open_stream E0).


(** [d1] running, with its console pty recorded. *)
Definition running_d1 : World :=
  mkWorld (mkVmObj d1 4242 VIR_DOMAIN_RUNNING VIR_DOMAIN_RUNNING_BOOTED true
             (mkPriv (Some "/dev/pts/3") (Some "/run/libvirt/fc/d1")
                     (Some "/run/libvirt/fc/d1/firecracker-lv.socket") (Some (mkCmd 4242))))
          [].

(** Success of a transfer as [virFCMonitorCurlExec] and [isSuccessCode] see it. *)
Definition curl_success (r : CurlResult) : bool :=
  match r with CurlResponse c => isSuccessCode c | _ => false end.

Definition change_state_request (sock : option string) (s : string) : Event :=
  EvHttp sock "PATCH" (URL_ROOT ++ "/" ++ URL_VM) (JObj [("state", JStr s)]).

(** The state string of an instance-info reply, as
    [fcInstanceInfoToDomainState] looks it up. *)
Definition status_of_body (body : option json) : option string :=
  match body with Some j => virJSONValueObjectGetString j "state" | None => None end.

(** Errors reported by the driver entry points. *)
Definition refresh_err : ErrCode * string :=
  (VIR_ERR_INTERNAL_ERROR, "Failed to refresh the state of vm").
Definition not_running_err : ErrCode * string :=
  (VIR_ERR_OPERATION_INVALID, "Domain is not in running state").
Definition not_paused_err : ErrCode * string :=
  (VIR_ERR_OPERATION_INVALID, "Domain is not in paused state").
Definition kernel_err : ErrCode * string :=
  (VIR_ERR_INTERNAL_ERROR, "Firecracker API call failed setting kernel and cmdline").
Definition root_missing_err : ErrCode * string :=
  (VIR_ERR_CONFIG_UNSUPPORTED, "Did not find a disk device with target destination '%s'").
Definition start_failed_err : ErrCode * string :=
  (VIR_ERR_INTERNAL_ERROR, "Failed starting the vm").

Definition err_index (c : ErrCode) : nat :=
  match c with
  | VIR_ERR_INTERNAL_ERROR => 0 | VIR_ERR_OPERATION_INVALID => 1
  | VIR_ERR_OPERATION_FAILED => 2 | VIR_ERR_CONFIG_UNSUPPORTED => 3
  | VIR_ERR_INVALID_ARG => 4 | VIR_ERR_PARSE_FAILED => 5
  | VIR_ERR_XML_INVALID_SCHEMA => 6 | VIR_ERR_XML_DETAIL => 7 | VIR_ERR_SYSTEM_ERROR => 8
  end.

(** Whether a call reported the error [e]. *)
Definition reported (e : ErrCode * string) (out : list Log) : bool :=
  existsb (fun x => Nat.eqb (err_index (fst x)) (err_index (fst e)) && String.eqb (snd x) (snd e))
          (errors_of out).

(** Whether the effects [ps] occur in [out] in this order (as a subsequence). *)
Fixpoint in_order (ps : list (Log -> bool)) (out : list Log) {struct out} : bool :=
  match ps with
  | [] => true
  | p :: ps' =>
      match out with
      | [] => false
      | x :: xs => if p x then in_order ps' xs else in_order ps xs
      end
  end.

Definition is_spawn (pid : Z) (l : Log) : bool :=
  match l with LEv (EvSpawn q) => q =? pid | _ => false end.
Definition is_abort (pid : Z) (l : Log) : bool :=
  match l with LEv (EvAbort q) => q =? pid | _ => false end.
Definition is_delete_tree (l : Log) : bool :=
  match l with LEv (EvDeleteTree _) => true | _ => false end.

(** The [boot_args] of every boot-source request of a call. *)
Definition boot_args_sent (out : list Log) : list string :=
  flat_map (fun l => match l with
                     | LEv (EvHttp _ meth url body) =>
                         if String.eqb meth "PUT"
                            && String.eqb url (URL_ROOT ++ "/" ++ URL_CONFIG_KERNEL)
                         then match virJSONValueObjectGetString body "boot_args" with
                              | Some a => [a] | None => [] end
                         else []
                     | _ => [] end) out.

(** A reference Firecracker process, following its HTTP API: the instance is
    "Not started" until the InstanceStart action, and a PATCH of the vm
    state to "Paused" or "Resumed" pauses or resumes it; it answers 204 to
    every action and reports its state on an instance-info query. *)
Definition vmm_step (st : string) (l : Log) : string :=
  match l with
  | LEv (EvHttp _ meth _ (JObj [(k, JStr a)])) =>
      if String.eqb meth "PUT" && String.eqb k "action_type" && String.eqb a "InstanceStart"
      then "Running"
      else if String.eqb meth "PATCH" && String.eqb k "state" then
        (if String.eqb a "Paused" then "Paused"
         else if String.eqb a "Resumed" then "Running" else st)
      else st
  | _ => st
  end.

Definition vmm_state (h : list Log) : string := fold_left vmm_step h "Not started".

Definition reference_vmm : Env :=
  mkEnv "/run/libvirt/fc" (fun _ => true) (fun _ => true) (fun _ => true)
    (fun _ => Some "/dev/pts/3") (fun _ => Some 4242) (fun _ => true) (fun _ => true)
    (fun _ => CurlResponse 204) (fun h => reply_state (vmm_state h))
    (fun _ => true) (fun _ => true) (fun _ => true).

(** What a start call that finds no root disk leaves behind. *)
Definition root_missing_outcome (w : World) (rv : Z) (w' : World) (out : list Log) : Prop :=
  rv = -1 /\ vm_state (w_vm w') = vm_state (w_vm w) /\
  (http_requests out = [] \/
   http_requests out = [("PUT", URL_ROOT ++ "/" ++ URL_CONFIG_KERNEL)]) /\
  reported root_missing_err out =
    negb (length (http_requests out) =? 0)%nat && negb (reported kernel_err out) /\
  (reported root_missing_err out = true ->
     reported start_failed_err out = true /\ last_error out <> Some root_missing_err).

(** What a start call that failed after spawning process [pid] leaves behind. *)
Definition failed_after_spawn_outcome (w : World) (pid : Z) (w' : World) (out : list Log) : Prop :=
  in_order [is_spawn pid; is_abort pid; is_delete_tree] out = true /\
  vm_id (w_vm w') = -1 /\ vm_state (w_vm w') = vm_state (w_vm w).

(** Everything we establish about one start call from world [w] returning
    [rv] in world [w'] with effects [out]. *)
Definition start_outcome (w : World) (rv : Z) (w' : World) (out : list Log) : Prop :=
  (exists n, http_requests out = firstn n start_calls) /\
  (getRootFSDiskDevice (vm_def (w_vm w)) = None -> root_missing_outcome w rv w' out) /\
  (forall pid, 0 < pid -> rv = -1 -> in_order [is_spawn pid] out = true ->
     failed_after_spawn_outcome w pid w' out) /\
  Forall (fun a => a = fcAddAdditionalCmdlineArgs (vm_def (w_vm w))) (boot_args_sent out).

(** [def] with its emulator set to [p]. *)
Definition with_emulator (p : string) (def0 : DomainDef) : DomainDef :=
  mkDomainDef (def_name def0) (Some p) (def_mem_kib def0) (def_vcpus_max def0)
    (def_os_kernel def0) (def_os_cmdline def0) (def_os_root def0)
    (def_disks def0) (def_serials def0) (def_nconsoles def0)
    (def_nparallels def0) (def_nchannels def0) (def_nets def0).

(** The requests of [virFCMonitorShutdownVM] and [virFCMonitorSetConfig]. *)
Definition shutdown_request (sock : option string) : Event :=
  EvHttp sock "PUT" (URL_ROOT ++ "/" ++ URL_ACTIONS) (JObj [("action_type", JStr "SendCtrlAltDel")]).


Arguments spaces : simpl never.
Arguments string_of_Z : simpl never.
Arguments vmm_state : simpl never.
Arguments start_outcome : simpl never.
Arguments getRootFSDiskDevice : simpl never.
Arguments fcAddAdditionalCmdlineArgs : simpl never.

(** ** Proof automation: run a call symbolically, splitting on every
    answer of the environment and every test of the code. *)

Lemma DomState_eqb_spec : forall a b, DomState_eqb a b = true <-> a = b.
Proof. intros [] []; simpl; split; congruence. Qed.

Lemma DomState_eqb_false : forall a b, DomState_eqb a b = false -> a <> b.
Proof. intros [] [] H; simpl in H; congruence. Qed.

Ltac unfold_monad :=
  unfold virDomainObjSetState, virDomainObjGetState, get_priv, modify_priv, val_of, world_of,
    out_of, virReportError, emit, ask, virDomainObjIsActive, ret_of_code, isSuccessCode in *;
  unfold bind, ret, tell, history, get_vm, modify_vm in *.

Ltac step :=
  match goal with
  | |- context [if ?b then _ else _] =>
      lazymatch b with
      | context [match _ with _ => _ end] => fail
      | _ => destruct b eqn:?
      end
  | |- context [match ?x with _ => _ end] =>
      lazymatch x with
      | (_, _) => fail
      | (if _ then _ else _) _ => fail
      | (match _ with _ => _ end) _ => fail
      | match _ with _ => _ end => fail
      | _ => destruct x eqn:?
      end
  end.

Ltac run := unfold_monad; cbn; repeat (step; cbn).

Ltac zfinish := repeat match goal with
 | H : (_ <? _) = true |- _ => apply Z.ltb_lt in H
 | H : (_ <? _) = false |- _ => apply Z.ltb_ge in H
 | H : (_ =? _) = true |- _ => apply Z.eqb_eq in H
 | H : (_ =? _) = false |- _ => apply Z.eqb_neq in H
 | H : String.eqb _ _ = true |- _ => apply String.eqb_eq in H
 | H : String.eqb _ _ = false |- _ => apply String.eqb_neq in H
 | H : DomState_eqb _ _ = true |- _ => apply DomState_eqb_spec in H
 | H : DomState_eqb _ _ = false |- _ => apply DomState_eqb_false in H
 | H : _ || _ = true |- _ => apply orb_true_iff in H; destruct H
 | H : _ || _ = false |- _ => apply orb_false_iff in H; destruct H
 | H : _ && _ = true |- _ => apply andb_true_iff in H; destruct H
 | H : _ && _ = false |- _ => apply andb_false_iff in H; destruct H
 | H : negb _ = true |- _ => apply negb_true_iff in H
 | H : negb _ = false |- _ => apply negb_false_iff in H
 end; try lia.

Ltac unfold_start :=
  unfold fcDomainCreateWithFlags, fcDomainCreate_error, fcDeleteVMDir, fcRecreateVMDir,
    fcCreateVMDir, fcPopulatePrivateData, fcStartVMProcess, fcStartVMProcess_error,
    fcConfigAndStartVM, fcWaitUntilExists, open_file, virCommandAbort,
    virFCMonitorSetKernel, virFCMonitorSetDisk, virFCMonitorStartVM, virFCJsonActionExec,
    virFCMonitorCurlExec.

Ltac destruct_world w :=
  destruct w as [[?d ?id ?st ?rs ?pers [?pty ?dir ?sock ?proc]] ?h].

(** [run], also splitting on the answer of the HTTP server where
    [virFCMonitorCurlExec] ends a request. *)
Ltac step_http :=
  match goal with
  | |- context [match env_http ?E ?h with _ => _ end] => destruct (env_http E h) eqn:?
  end.

Ltac run_http := repeat match goal with x := _ |- _ => subst x end; unfold_monad; cbn;
  try unfold virFCMonitorCurlExec; unfold_monad; cbn; repeat ((step_http || step); cbn).

Ltac is_oracle f :=
  lazymatch f with
  | env_http => idtac | env_get => idtac | env_delete_tree => idtac | env_mkdir => idtac
  | env_open => idtac | env_openpty => idtac | env_spawn => idtac
  | env_socket_appears => idtac | env_update_perm => idtac | env_wait => idtac
  | env_remove => idtac | env_open_stream => idtac
  end.

(** Two answers of the same oracle on convertible histories agree. *)
Ltac merge_env := repeat match goal with
  | H1 : ?f ?E ?a = ?x, H2 : ?f ?E ?b = ?y |- _ =>
      is_oracle f;
      let Hx := fresh in
      assert (Hx : x = y) by (first [reflexivity | rewrite <- H1, <- H2; reflexivity]);
      clear H2;
      first [discriminate Hx | injection Hx; intros; subst | clear Hx]
  end.

(** ** Lemmas *)

(** One symbolic run of the start operation, whatever the environment
    answers: the requests sent are a prefix of boot-source, drive "rootfs",
    start action; a missing root disk, or a failure after the process was
    spawned, leave the state described above; every boot-source request
    carries [fcAddAdditionalCmdlineArgs] of the definition. *)
Lemma fcDomainCreateWithFlags_outcome : forall E w,
  let '(rv, w', out) := fcDomainCreateWithFlags E w in start_outcome w rv w' out.
Proof.
  intros E w. destruct_world w.
  unfold_start.
  run.
  all: unfold start_outcome; split;
    [vm_compute; first [exists 0%nat; reflexivity | exists 1%nat; reflexivity
                       | exists 2%nat; reflexivity | exists 3%nat; reflexivity]|].
  all: split;
    [intros Hroot; cbn in Hroot; first [congruence |
       unfold root_missing_outcome, kernel_err, root_missing_err, start_failed_err; vm_compute;
       split; [reflexivity|]; split; [reflexivity|];
       split; [first [left; reflexivity | right; reflexivity]|];
       split; [reflexivity|];
       intros Hr; first [discriminate Hr | split; [reflexivity | discriminate]]]|].
  all: split;
    [intros pid Hpos Hrv Hin; try discriminate Hrv; cbn in Hin; try discriminate Hin;
     repeat match type of Hin with
            | context [if ?b then _ else _] => destruct b eqn:?; try discriminate Hin
            end;
     match goal with Hz : (?z =? pid) = true |- _ => apply Z.eqb_eq in Hz; subst z end;
     unfold failed_after_spawn_outcome; cbn;
     repeat (rewrite Z.eqb_refl; cbn);
     first [solve [repeat split] | zfinish]|].
  all: cbn; repeat constructor.
Qed.

Lemma in_order_spawn : forall pid out,
  In (LEv (EvSpawn pid)) out -> in_order [is_spawn pid] out = true.
Proof.
  intros pid out. induction out as [|x out IH]; intros H; [destruct H|].
  destruct H as [->|H]; cbn.
  - rewrite Z.eqb_refl. destruct out; reflexivity.
  - destruct (is_spawn pid x); [destruct out; reflexivity | exact (IH H)].
Qed.

Lemma vmm_state_snoc : forall h l, vmm_state (h ++ [l])%list = vmm_step (vmm_state h) l.
Proof. intros. unfold vmm_state. rewrite fold_left_app. reflexivity. Qed.

Lemma virFCDomainDefPostParseBasic_no_consoles : forall p d0 d e,
  virFCDomainDefPostParseBasic p d0 = (0, d, e) -> def_nconsoles d = 0%nat.
Proof.
  intros p d0 d e H. unfold virFCDomainDefPostParseBasic in H. cbv zeta in H.
  repeat match type of H with
         | context [if ?b then _ else _] => destruct b eqn:?
         | context [match ?x with _ => _ end] =>
             lazymatch x with
             | (_, _) => fail
             | _ => destruct x eqn:?
             end
         end; try discriminate H; inversion H; subst;
  match goal with Hc : (0 <? def_nconsoles _)%nat = false |- _ =>
    apply Nat.ltb_ge in Hc; lia end.
Qed.

Lemma append_nonempty_neq : forall s t c, (s ++ String c t)%string <> s.
Proof.
  induction s as [|a s IH]; intros t c H; [discriminate H|].
  injection H as H. exact (IH t c H).
Qed.

Lemma fcAddAdditionalCmdlineArgs_spec : forall d,
  let cmdline := match def_os_cmdline d with Some s => s | None => "" end in
  let a := fcAddAdditionalCmdlineArgs d in
  (forall s rest, def_serials d = s :: rest ->
     a = cmdline ++ " console=ttyS" ++ string_of_Z (chr_target_port s)) /\
  (def_serials d = [] -> a = cmdline) /\
  (def_serials d <> [] <-> a <> cmdline).
Proof.
  intros d cmdline a. subst cmdline a. unfold fcAddAdditionalCmdlineArgs.
  destruct (def_serials d) as [|s rest].
  - split; [intros ? ? H; discriminate H|]. split; [reflexivity|]. tauto.
  - split; [intros s' rest' H; injection H as -> ->; reflexivity|].
    split; [intros H; discriminate H|].
    split; [intros _; apply append_nonempty_neq | intros _ H; discriminate H].
Qed.


(** ** Claims *)

(** C1 (code_bug).  The start operation is specified to send machine-config,
    boot-source, the drives, the network interfaces and the start action in
    that order.  The code sends, for every guest and whatever the VMM
    answers, only a prefix of boot-source, drive "rootfs", start action: it
    never sends machine-config nor any network interface, although
    [virFCMonitorSetConfig] and [virFCMonitorSetNetwork] exist.  On the
    spec's guest "d1", with every step succeeding, exactly those three
    requests are sent. *)
Theorem fcDomainCreateWithFlags_config_calls :
  (forall E w, exists n,
     http_requests (out_of (fcDomainCreateWithFlags E w)) = firstn n start_calls) /\
  http_requests (out_of (fcDomainCreateWithFlags (env_all_ok "Running") (world0 (defined_vm d1))))
    = start_calls /\
  ~ In ("PUT", URL_ROOT ++ "/" ++ URL_CONFIG_PREBOOT)
      (http_requests (out_of (fcDomainCreateWithFlags (env_all_ok "Running")
                                                      (world0 (defined_vm d1))))).
Proof.
  split.
  - intros E w. pose proof (fcDomainCreateWithFlags_outcome E w) as H.
    destruct (fcDomainCreateWithFlags E w) as [[rv w'] out].
    unfold start_outcome in H. exact (proj1 H).
  - split; [reflexivity |]. vm_compute. intuition discriminate.
Qed.

(** Counterexample to C2: shutting down the defined, never started guest
    "d1" (cached state SHUTOFF) while the VMM socket is unreachable fails,
    with the not-running error. *)
Lemma fcDomainShutdownFlags_shutoff_unreachable :
  let w := world0 (defined_vm d1) in
  let r := fcDomainShutdownFlags (env_with_get (env_all_ok "Running") (CurlPerformError, None)) w in
  vm_state (w_vm w) = VIR_DOMAIN_SHUTOFF /\ val_of r = -1 /\
  last_error (out_of r) = Some not_running_err.
Proof. vm_compute. split; [reflexivity|]. split; reflexivity. Qed.

(** C2 (amended).  When the status refresh of a shutdown fails (the monitor
    answers NOSTATE), the refresh error is not reported exactly when the
    cached state was SHUTOFF; the cached state then becomes NOSTATE and the
    shutdown fails anyway, with the not-running error.  Otherwise the
    refresh error aborts the shutdown.  In both cases shutdown returns -1
    and sends no request to the VMM. *)
Theorem fcDomainShutdownFlags_refresh_failure : forall E w,
  let v := w_vm w in
  let r := fcDomainShutdownFlags E w in
  val_of (virFCMonitorGetStatus E (socketpath (vm_priv v)) w) = VIR_DOMAIN_NOSTATE ->
  val_of r = -1 /\ http_requests (out_of r) = [] /\
  vm_state (w_vm (world_of r)) = VIR_DOMAIN_NOSTATE /\
  (vm_state v = VIR_DOMAIN_SHUTOFF ->
     last_error (out_of r) = Some not_running_err /\ ~ In refresh_err (errors_of (out_of r))) /\
  (vm_state v <> VIR_DOMAIN_SHUTOFF -> last_error (out_of r) = Some refresh_err).
Proof.
  intros E w. destruct_world w.
  unfold fcDomainShutdownFlags, fcUpdateState, virFCMonitorGetStatus, virFCMonitorCurlExec,
    fcInstanceInfoToDomainState, refresh_err, not_running_err.
  run.
  all: intros Hn; try discriminate Hn.
  all: zfinish; subst; repeat split; intros; try congruence; cbn; intuition congruence.
Qed.

Lemma fcDomainShutdownFlags_refresh_failure_witness :
  val_of (virFCMonitorGetStatus (env_with_get (env_all_ok "Running") (CurlPerformError, None))
            (socketpath (vm_priv (w_vm (world0 (defined_vm d1))))) (world0 (defined_vm d1)))
    = VIR_DOMAIN_NOSTATE /\
  val_of (fcDomainShutdownFlags (env_with_get (env_all_ok "Running") (CurlPerformError, None))
            (world0 (defined_vm d1))) = -1.
Proof.
  split; [vm_compute; reflexivity|].
  apply (fcDomainShutdownFlags_refresh_failure
           (env_with_get (env_all_ok "Running") (CurlPerformError, None))
           (world0 (defined_vm d1))).
  vm_compute. reflexivity.
Defined.




(** C4 (code_bug).  The "Domain is already running" guard of
    [fcDomainCreateWithFlags] jumps to the [error] label, which is the
    clean-up of a failed start: on an active guest whose process is
    recorded, a start reports the error, then aborts that live process,
    deletes the guest's directory and sets the id to -1, sending nothing to
    the VMM and keeping the cached lifecycle state (RUNNING for a running
    guest). *)
Theorem fcDomainCreateWithFlags_start_active : forall E w c,
  virDomainObjIsActive (w_vm w) = true ->
  fc_process (vm_priv (w_vm w)) = Some c ->
  cmd_pid c <> -1 ->
  let r := fcDomainCreateWithFlags E w in
  val_of r = -1 /\
  firstn 3 (out_of r) =
    [LErr VIR_ERR_OPERATION_INVALID "Domain is already running";
     LEv (EvAbort (cmd_pid c)); LEv (EvDeleteTree (vm_dir (vm_priv (w_vm w))))] /\
  (forall ev, In (LEv ev) (out_of r) ->
     ev = EvAbort (cmd_pid c) \/ ev = EvDeleteTree (vm_dir (vm_priv (w_vm w)))) /\
  vm_id (w_vm (world_of r)) = -1 /\
  vm_state (w_vm (world_of r)) = vm_state (w_vm w) /\
  fc_process (vm_priv (w_vm (world_of r))) = Some (mkCmd (-1)).
Proof.
  intros E w [pid] Hact Hp Hpid. destruct_world w. cbn in *. subst.
  unfold fcDomainCreateWithFlags, fcDomainCreate_error, fcDeleteVMDir, virCommandAbort.
  rewrite Hact. run.
  all: zfinish.
  all: repeat split; try reflexivity; intros ev Hin; cbn in Hin; intuition congruence.
Qed.

Lemma fcDomainCreateWithFlags_start_active_witness :
  vm_state (w_vm running_d1) = VIR_DOMAIN_RUNNING /\
  val_of (fcDomainCreateWithFlags (env_all_ok "Running") running_d1) = -1 /\
  vm_state (w_vm (world_of (fcDomainCreateWithFlags (env_all_ok "Running") running_d1)))
    = VIR_DOMAIN_RUNNING.
Proof.
  split; [reflexivity|].
  pose proof (fcDomainCreateWithFlags_start_active (env_all_ok "Running") running_d1
                (mkCmd 4242) eq_refl eq_refl ltac:(simpl; lia)) as H.
  cbn zeta in H. destruct H as (H1 & _ & _ & _ & H5 & _).
  split; [exact H1 | rewrite H5; reflexivity].
Defined.

(** A run exposing the guard: the second start on the running guest "d1"
    kills its process and clears its id but keeps RUNNING; a third start
    then spawns a process, fails when the VMM rejects the boot-source
    request, and also leaves the state RUNNING. *)
Lemma fcDomainCreateWithFlags_failed_start_running :
  let w1 := world_of (fcDomainCreateWithFlags (env_all_ok "Running") (world0 (defined_vm d1))) in
  let w2 := world_of (fcDomainCreateWithFlags (env_all_ok "Running") w1) in
  let r := fcDomainCreateWithFlags (env_with_http (env_all_ok "Running") (CurlResponse 400)) w2 in
  In (LEv (EvSpawn 4242)) (out_of r) /\ val_of r = -1 /\
  vm_id (w_vm (world_of r)) = -1 /\ vm_state (w_vm (world_of r)) = VIR_DOMAIN_RUNNING.
Proof.
  vm_compute. split; [tauto|]. split; [reflexivity|]. split; reflexivity.
Qed.

(** Counterexample to C5: a reply with code 400 yields NOSTATE and no
    error is reported. *)
Lemma virFCMonitorGetStatus_silent_http_error :
  let r := virFCMonitorGetStatus (env_with_get (env_all_ok "Running") (CurlResponse 400, Some (JObj [])))
                                 None (world0 (defined_vm d1)) in
  val_of r = VIR_DOMAIN_NOSTATE /\ errors_of (out_of r) = [].
Proof. vm_compute. split; reflexivity. Qed.

(** C5 (amended).  [virFCMonitorGetStatus] maps a successful reply whose
    state is "Running", "Paused" or "Not started" to RUNNING, PAUSED or
    SHUTOFF with no error, and any other successful reply (unparseable, no
    state key, other string) to NOSTATE with an error; a failed transfer or
    a negative code gives NOSTATE with an error; a non-success code that is
    not negative gives NOSTATE with no error reported. *)
Theorem virFCMonitorGetStatus_mapping : forall E sock w,
  let '(cr, body) := env_get E (w_hist w ++ [LEv (EvGet sock status_url)])%list in
  let r := virFCMonitorGetStatus E sock w in
  let st := status_of_body body in
  match cr with
  | CurlResponse c =>
      if c <? 0 then val_of r = VIR_DOMAIN_NOSTATE /\ errors_of (out_of r) <> []
      else if isSuccessCode c then
        (st = Some "Running" -> val_of r = VIR_DOMAIN_RUNNING /\ errors_of (out_of r) = []) /\
        (st = Some "Paused" -> val_of r = VIR_DOMAIN_PAUSED /\ errors_of (out_of r) = []) /\
        (st = Some "Not started" -> val_of r = VIR_DOMAIN_SHUTOFF /\ errors_of (out_of r) = []) /\
        (st <> Some "Running" -> st <> Some "Paused" -> st <> Some "Not started" ->
           val_of r = VIR_DOMAIN_NOSTATE /\ errors_of (out_of r) <> [])
      else val_of r = VIR_DOMAIN_NOSTATE /\ errors_of (out_of r) = []
  | _ => val_of r = VIR_DOMAIN_NOSTATE /\ errors_of (out_of r) <> []
  end.
Proof.
  intros E sock w.
  unfold virFCMonitorGetStatus, virFCMonitorCurlExec, fcInstanceInfoToDomainState, status_of_body.
  run.
  all: zfinish; subst; repeat split; intros; try congruence.
Qed.

Lemma virFCMonitorGetStatus_mapping_witness :
  val_of (virFCMonitorGetStatus (env_all_ok "Paused") None (world0 (defined_vm d1)))
    = VIR_DOMAIN_PAUSED /\
  errors_of (out_of (virFCMonitorGetStatus (env_all_ok "Paused") None (world0 (defined_vm d1))))
    = [].
Proof.
  exact (proj1 (proj2 (virFCMonitorGetStatus_mapping (env_all_ok "Paused") None
                                                    (world0 (defined_vm d1)))) eq_refl).
Defined.

(** C6.  [virFCMonitorChangeState] rejects every string other than exactly
    "Paused" or "Resumed" with an invalid-argument error and sends nothing;
    for those two it sends the PATCH request and succeeds iff the reply code
    is 200 or 204. *)
Theorem virFCMonitorChangeState_guard : forall E sock s w,
  let r := virFCMonitorChangeState E sock s w in
  (s <> "Paused" -> s <> "Resumed" ->
     val_of r = -1 /\ sent_to_vmm (out_of r) = [] /\
     errors_of (out_of r) =
       [(VIR_ERR_INVALID_ARG, "Domain can not transition into invalid state '%s'")]) /\
  (s = "Paused" \/ s = "Resumed" ->
     sent_to_vmm (out_of r) = [change_state_request sock s] /\
     (val_of r = 0 <->
        curl_success (env_http E (w_hist w ++ [LEv (change_state_request sock s)])%list) = true)).
Proof.
  intros E sock s w r. subst r. split.
  - intros Hp Hr.
    apply String.eqb_neq in Hp, Hr.
    unfold virFCMonitorChangeState. rewrite Hp, Hr. run. repeat split.
  - intros Hs. unfold virFCMonitorChangeState.
    assert (Hg : negb (String.eqb s "Paused") && negb (String.eqb s "Resumed") = false)
      by (destruct Hs; subst; reflexivity).
    rewrite Hg.
    unfold virFCJsonActionExec, virFCMonitorCurlExec, change_state_request, curl_success.
    run.
    all: split; [reflexivity|]; split; intros; zfinish; try discriminate; try reflexivity.
Qed.

Lemma virFCMonitorChangeState_guard_witness :
  sent_to_vmm (out_of (virFCMonitorChangeState (env_all_ok "Running") None "Paused"
                                                (world0 (defined_vm d1))))
    = [change_state_request None "Paused"].
Proof.
  apply (proj2 (virFCMonitorChangeState_guard (env_all_ok "Running") None "Paused"
                                              (world0 (defined_vm d1)))).
  left. reflexivity.
Defined.

(** The inputs the spec lists are rejected. *)
Example virFCMonitorChangeState_rejects_listed :
  forall E sock w, Forall (fun s => val_of (virFCMonitorChangeState E sock s w) = -1)
                          ["paused"; "RESUMED"; ""; "Running"].
Proof. intros. repeat constructor. Qed.

(** C7.  Every boot-source request that start sends carries as boot_args
    the definition's command line (empty when unset) followed by
    " console=ttyS<port>" of the first serial device when there is one,
    and the command line unmodified when there is none; so it differs from
    the command line iff a serial device is configured. *)
Theorem fcDomainCreateWithFlags_boot_args : forall E w,
  let d := vm_def (w_vm w) in
  let cmdline := match def_os_cmdline d with Some s => s | None => "" end in
  Forall (fun a =>
     (forall s rest, def_serials d = s :: rest ->
        a = cmdline ++ " console=ttyS" ++ string_of_Z (chr_target_port s)) /\
     (def_serials d = [] -> a = cmdline) /\
     (def_serials d <> [] <-> a <> cmdline))
   (boot_args_sent (out_of (fcDomainCreateWithFlags E w))).
Proof.
  intros E w d cmdline. pose proof (fcDomainCreateWithFlags_outcome E w) as H.
  destruct (fcDomainCreateWithFlags E w) as [[rv w'] out].
  unfold start_outcome in H. destruct H as (_ & _ & _ & H).
  eapply Forall_impl; [|exact H].
  intros a ->. apply fcAddAdditionalCmdlineArgs_spec.
Qed.

Lemma fcDomainCreateWithFlags_boot_args_witness :
  boot_args_sent (out_of (fcDomainCreateWithFlags (env_all_ok "Running") (world0 (defined_vm d1))))
    = ["panic=1 console=ttyS0"] /\
  Forall (fun a => a = "panic=1" ++ " console=ttyS" ++ string_of_Z 0)
    (boot_args_sent (out_of (fcDomainCreateWithFlags (env_all_ok "Running")
                                                      (world0 (defined_vm d1))))).
Proof.
  split; [vm_compute; reflexivity|].
  eapply Forall_impl;
    [|exact (fcDomainCreateWithFlags_boot_args (env_all_ok "Running") (world0 (defined_vm d1)))].
  intros a [Hs _]. exact (Hs _ [] eq_refl).
Defined.

(** Counterexample to C8: resuming the never started guest "d1" while the
    VMM socket is unreachable: the refreshed state is NOSTATE, not PAUSED,
    and resume fails with the refresh error, not the not-paused error. *)
Lemma fcDomainResume_unreachable :
  let E := env_with_get (env_all_ok "Running") (CurlPerformError, None) in
  let w := world0 (defined_vm d1) in
  let r := fcDomainResume E w in
  val_of (virFCMonitorGetStatus E (socketpath (vm_priv (w_vm w))) w) = VIR_DOMAIN_NOSTATE /\
  val_of r = -1 /\ last_error (out_of r) = Some refresh_err.
Proof. vm_compute. split; [reflexivity|]. split; reflexivity. Qed.

(** C8 (amended).  Against the reference Firecracker process, from a
    running instance, suspend moves the cached state to PAUSED and a
    following resume back to RUNNING.  For every guest whose refreshed
    state is not PAUSED, resume returns -1, sends no request to the VMM
    besides the status query and leaves the refreshed state cached; the
    error is the not-paused error when the refresh succeeded, and the
    refresh error when it failed (refreshed state NOSTATE). *)
Theorem fcDomainSuspend_Resume : 
  (forall w,
     vmm_state (w_hist w) = "Running" ->
     let r1 := fcDomainSuspend reference_vmm w in
     let r2 := fcDomainResume reference_vmm (world_of r1) in
     val_of r1 = 0 /\ vm_state (w_vm (world_of r1)) = VIR_DOMAIN_PAUSED /\
     val_of r2 = 0 /\ vm_state (w_vm (world_of r2)) = VIR_DOMAIN_RUNNING) /\
  (forall E w,
     let s := val_of (virFCMonitorGetStatus E (socketpath (vm_priv (w_vm w))) w) in
     let r := fcDomainResume E w in
     s <> VIR_DOMAIN_PAUSED ->
     val_of r = -1 /\ http_requests (out_of r) = [] /\
     vm_state (w_vm (world_of r)) = s /\
     (s <> VIR_DOMAIN_NOSTATE -> last_error (out_of r) = Some not_paused_err) /\
     (s = VIR_DOMAIN_NOSTATE -> last_error (out_of r) = Some refresh_err)).
Proof.
  split.
  - intros w H. destruct_world w. cbn in H.
    unfold fcDomainSuspend, fcDomainResume, fcUpdateState, virFCMonitorGetStatus,
      virFCMonitorCurlExec, fcInstanceInfoToDomainState, virFCMonitorChangeState,
      virFCJsonActionExec, reference_vmm, reply_state.
    run.
    all: repeat rewrite vmm_state_snoc in *; rewrite ?H in *; cbn in *; try discriminate.
    all: repeat split.
  - intros E w. destruct_world w.
    unfold fcDomainResume, fcUpdateState, virFCMonitorGetStatus, virFCMonitorCurlExec,
      fcInstanceInfoToDomainState, refresh_err, not_paused_err.
    run.
    all: intros Hn; try congruence.
    all: zfinish; subst; repeat split; intros; try congruence.
Qed.

Lemma fcDomainSuspend_Resume_witness :
  let w := world_of (fcDomainCreateWithFlags reference_vmm (world0 (defined_vm d1))) in
  vm_state (w_vm (world_of (fcDomainResume reference_vmm
                              (world_of (fcDomainSuspend reference_vmm w))))) = VIR_DOMAIN_RUNNING.
Proof.
  intros w.
  apply (proj1 fcDomainSuspend_Resume w).
  vm_compute. reflexivity.
Defined.

(** C10.  [fcUpdateState] stores the state the monitor returns before
    checking it: a failed refresh (NOSTATE) overwrites the cached state
    with NOSTATE and returns -1; it returns -1 exactly when the cached
    state ends NOSTATE, and 0 otherwise. *)
Theorem fcUpdateState_overwrites : forall E w,
  let r := fcUpdateState E w in
  vm_state (w_vm (world_of r)) =
    val_of (virFCMonitorGetStatus E (socketpath (vm_priv (w_vm w))) w) /\
  (val_of r = -1 <-> vm_state (w_vm (world_of r)) = VIR_DOMAIN_NOSTATE) /\
  (val_of r = 0 \/ val_of r = -1).
Proof.
  intros E w. destruct_world w.
  unfold fcUpdateState, virFCMonitorGetStatus, virFCMonitorCurlExec, fcInstanceInfoToDomainState.
  run.
  all: zfinish; subst; repeat split; intros; try congruence; auto.
Qed.

(** ** Further properties of the code *)

(** X1.  [virFCMonitorCurlExec] either returns -1 after reporting exactly
    one internal error (transfer failure, failed code query or negative
    code), or returns the HTTP code itself, which is then non-negative,
    with nothing reported; the domain object is untouched. *)
Theorem virFCMonitorCurlExec_result : forall r w,
  let '(z, w', out) := virFCMonitorCurlExec r w in
  w_vm w' = w_vm w /\
  ((z = -1 /\ exists m, out = [LErr VIR_ERR_INTERNAL_ERROR m]) \/
   (0 <= z /\ r = CurlResponse z /\ out = [])).
Proof.
  intros r w. unfold virFCMonitorCurlExec. destruct r as [| |c]; run.
  all: zfinish; split; [reflexivity|].
  all: first [left; split; [reflexivity | eexists; reflexivity] | right; repeat split; lia].
Qed.

(** X2.  [virFCJsonActionExec] sends exactly one request, with the given
    method and body, to [URL_ROOT "/" endpoint] on the given socket; it
    leaves the domain object unchanged and returns -1 or a non-negative
    HTTP code. *)
Theorem virFCJsonActionExec_one_request : forall E sock ep meth body w,
  let r := virFCJsonActionExec E sock ep meth body w in
  sent_to_vmm (out_of r) = [EvHttp sock meth (URL_ROOT ++ "/" ++ ep) body] /\
  w_vm (world_of r) = w_vm w /\
  (val_of r = -1 \/ 0 <= val_of r).
Proof.
  intros. unfold virFCJsonActionExec. run_http.
  all: zfinish; repeat split; lia.
Qed.


(** X4.  [virFCMonitorSetNetwork] sends one PUT to
    "http://localhost//network-interfaces/<iface_id>" (with a doubled slash,
    as its endpoint already starts with one) carrying the mmds flag, the
    guest MAC, the host device and the interface id; it returns 0 exactly
    when the reply is a 200 or 204 response, and -1 otherwise. *)
Theorem virFCMonitorSetNetwork_request : forall E sock iface_id mac host_dev allow w,
  let ev := EvHttp sock "PUT" ("http://localhost//network-interfaces/" ++ iface_id)
              (JObj [("allow_mmds_requests", JBool allow); ("guest_mac", JStr mac);
                     ("host_dev_name", JStr host_dev); ("iface_id", JStr iface_id)]) in
  let r := virFCMonitorSetNetwork E sock iface_id mac host_dev allow w in
  sent_to_vmm (out_of r) = [ev] /\
  w_vm (world_of r) = w_vm w /\
  (val_of r = 0 \/ val_of r = -1) /\
  (val_of r = 0 <-> curl_success (env_http E (w_hist w ++ [LEv ev])%list) = true).
Proof.
  intros. unfold virFCMonitorSetNetwork, virFCJsonActionExec, virFCMonitorCurlExec,
    curl_success in *. subst ev r. run_http.
  all: merge_env; zfinish; subst; repeat split; try lia; try (intros; discriminate); try (intros; lia).
Qed.

(** X5.  [fcStopVM] sends exactly the SendCtrlAltDel action.  It returns 0
    exactly when the VMM answers 200 or 204, and then sets the state SHUTOFF
    with the given reason and the id to -1 without reporting an error;
    otherwise it returns -1, leaves the domain object unchanged and its
    last error is the operation-failed "Shutting down the vm" one.  In both
    cases the definition and the private data (process, socket) are kept. *)
Theorem fcStopVM_outcome : forall E reason w,
  let ev := shutdown_request (socketpath (vm_priv (w_vm w))) in
  let '(z, w', out) := fcStopVM E reason w in
  sent_to_vmm out = [ev] /\
  vm_def (w_vm w') = vm_def (w_vm w) /\ vm_priv (w_vm w') = vm_priv (w_vm w) /\
  (z = 0 <-> curl_success (env_http E (w_hist w ++ [LEv ev])%list) = true) /\
  ((z = 0 /\ vm_state (w_vm w') = VIR_DOMAIN_SHUTOFF /\ vm_reason (w_vm w') = reason /\
    vm_id (w_vm w') = -1 /\ errors_of out = []) \/
   (z = -1 /\ w_vm w' = w_vm w /\
    last_error out = Some (VIR_ERR_OPERATION_FAILED,
      "Firecracker API call failed or received an error for Shutting down the vm"))).
Proof.
  intros E reason w. destruct_world w.
  unfold fcStopVM, virFCMonitorShutdownVM, virFCJsonActionExec, virFCMonitorCurlExec,
    shutdown_request, curl_success. run_http.
  all: merge_env; zfinish; subst.
  all: first [ split; [reflexivity|]; split; [reflexivity|]; split; [reflexivity|];
               split; [split; intros; first [reflexivity | discriminate | lia] |];
               first [solve [left; repeat split] | solve [right; repeat split]] ].
Qed.

(** X6.  A forced destroy never talks to the VMM and trusts the cached state.
    On a guest cached as RUNNING it aborts the recorded process (if it has
    a pid), asks for the socket to be removed, leaves the process marked
    not running, sets SHUTOFF / DESTROYED and id -1 so that
    [fcDomainIsActive] then reports 0, and returns 0 with no error.  On any
    other cached state it returns -1 with only the "Domain is not running"
    error and changes nothing. *)
Theorem fcDomainDestroyFlags_outcome : forall E w,
  let v := w_vm w in
  let '(z, w', out) := fcDomainDestroyFlags E w in
  sent_to_vmm out = [] /\
  if DomState_eqb (vm_state v) VIR_DOMAIN_RUNNING then
    z = 0 /\ errors_of out = [] /\
    vm_state (w_vm w') = VIR_DOMAIN_SHUTOFF /\
    vm_reason (w_vm w') = VIR_DOMAIN_SHUTOFF_DESTROYED /\
    val_of (fcDomainIsActive w') = 0 /\
    In (LEv (EvRemove (socketpath (vm_priv v)))) out /\
    (forall pid, fc_process (vm_priv v) = Some (mkCmd pid) -> pid <> -1 ->
       In (LEv (EvAbort pid)) out) /\
    (forall c, fc_process (vm_priv (w_vm w')) = Some c -> cmd_pid c = -1)
  else
    z = -1 /\ w_vm w' = v /\
    out = [LErr VIR_ERR_OPERATION_INVALID "Domain is not running"].
Proof.
  intros E w. destruct_world w.
  unfold fcDomainDestroyFlags, virCommandAbort, fcFirecrackerCleanup, fcDomainIsActive. run.
  all: zfinish; subst; repeat split; intros; try discriminate.
  all: repeat match goal with H : Some _ = Some _ |- _ => injection H as H; subst end.
  all: cbn in *; zfinish; subst; tauto.
Qed.




(** X9.  [fcDomainGetState] never returns NOSTATE, and returns the state it
    leaves cached: when the status query yields NOSTATE the guest becomes
    SHUTOFF / UNKNOWN; otherwise the queried state is returned with the
    reason 0. *)
Theorem fcDomainGetState_never_nostate : forall E w,
  let s := val_of (virFCMonitorGetStatus E (socketpath (vm_priv (w_vm w))) w) in
  let r := fcDomainGetState E w in
  val_of r <> VIR_DOMAIN_NOSTATE /\
  vm_state (w_vm (world_of r)) = val_of r /\
  (s = VIR_DOMAIN_NOSTATE ->
     val_of r = VIR_DOMAIN_SHUTOFF /\ vm_reason (w_vm (world_of r)) = VIR_DOMAIN_SHUTOFF_UNKNOWN) /\
  (s <> VIR_DOMAIN_NOSTATE -> val_of r = s /\ vm_reason (w_vm (world_of r)) = REASON_NONE).
Proof.
  intros E w. destruct_world w.
  unfold fcDomainGetState, fcUpdateState, virFCMonitorGetStatus, fcInstanceInfoToDomainState.
  run_http.
  all: merge_env; zfinish; subst; repeat split; intros; try congruence.
Qed.


(** X11.  A definition accepted by [virFCDomainDefPostParseBasic] has no
    newline in its name, an emulator, a non-blank kernel and root, no
    parallel, console or channel devices, at most one serial device which
    is then a serial of pty type, and a disk whose target is the root. *)
Theorem virFCDomainDefPostParseBasic_accepts : forall p d0 d e,
  virFCDomainDefPostParseBasic p d0 = (0, d, e) ->
  e = None /\ has_char newline (def_name d) = false /\ def_emulator d <> None /\
  virStringIsEmpty (def_os_kernel d) = false /\ virStringIsEmpty (def_os_root d) = false /\
  def_nparallels d = 0%nat /\ def_nconsoles d = 0%nat /\ def_nchannels d = 0%nat /\
  (def_serials d = [] \/
   exists s, def_serials d = [s] /\ chr_deviceType s = VIR_DOMAIN_CHR_DEVICE_TYPE_SERIAL /\
             chr_source_type s = VIR_DOMAIN_CHR_TYPE_PTY) /\
  (exists dd, getRootFSDiskDevice d = Some dd).
Proof.
  intros p d0 d e H. unfold virFCDomainDefPostParseBasic in H. cbv zeta in H.
  repeat match type of H with
         | context [if ?b then _ else _] =>
             lazymatch b with context [match _ with _ => _ end] => fail | _ => destruct b eqn:? end
         | context [match ?x with _ => _ end] =>
             lazymatch x with
             | (_, _) => fail
             | context [match _ with _ => _ end] => fail
             | _ => destruct x eqn:?
             end
         end; try discriminate H; inversion H; subst.
  all: repeat match goal with H : (_ <? _)%nat = false |- _ => apply Nat.ltb_ge in H end.
  all: cbn -[newline] in *.
  all: repeat split; try reflexivity; try lia.
  all: try first [ assumption | lia | (intros Hc; discriminate Hc) | congruence
             | (left; assumption) | (right; eexists; repeat split; eassumption)
             | (eexists; eassumption) ].
Qed.

Lemma virFCDomainDefPostParseBasic_accepts_witness :
  virFCDomainDefPostParseBasic None d1 = (0, d1, None) /\ def_nconsoles d1 = 0%nat.
Proof.
  split; [vm_compute; reflexivity|].
  exact (proj1 (proj2 (proj2 (proj2 (proj2 (proj2 (proj2
           (virFCDomainDefPostParseBasic_accepts None d1 d1 None ltac:(vm_compute; reflexivity))))))))).
Defined.

(** X12.  [virFCDomainDefPostParseBasic] returns 0 or -1, and returns 0
    exactly when it reports no error.  The only change it makes to the
    definition is filling a missing emulator with the path found for
    firecracker.  With no emulator in the definition and none found it
    fails. *)
Theorem virFCDomainDefPostParseBasic_result : forall p d0,
  let '(rc, d, e) := virFCDomainDefPostParseBasic p d0 in
  (rc = 0 \/ rc = -1) /\ (rc = 0 <-> e = None) /\
  (d = d0 \/ (def_emulator d0 = None /\ exists path, p = Some path /\ d = with_emulator path d0)) /\
  (def_emulator d0 = None -> p = None -> rc = -1).
Proof.
  intros p d0. unfold virFCDomainDefPostParseBasic. cbv zeta.
  repeat match goal with
         | |- context [if ?b then _ else _] =>
             lazymatch b with context [match _ with _ => _ end] => fail | _ => destruct b eqn:? end
         | |- context [match ?x with _ => _ end] =>
             lazymatch x with
             | (_, _) => fail
             | context [match _ with _ => _ end] => fail
             | _ => destruct x eqn:?
             end
         end.
  all: repeat split; intros; try congruence.
  all: first [left; reflexivity | right; reflexivity
             | right; split; [reflexivity | eexists; split; reflexivity]].
Qed.

(** X13.  [fcStartVMProcess] sends nothing to the VMM and keeps the state
    and the definition.  On success a process was spawned, and its pid
    becomes the id and the recorded process; the console pty is recorded
    exactly when the guest has a serial device (after opening a pty).  On
    failure it reports an error, sets the id to -1, forgets the process,
    and aborts every process it spawned. *)
Theorem fcStartVMProcess_outcome : forall E w,
  let v := w_vm w in
  let '(z, w', out) := fcStartVMProcess E w in
  sent_to_vmm out = [] /\
  vm_state (w_vm w') = vm_state v /\ vm_def (w_vm w') = vm_def v /\
  ((z = 0 /\
    exists pid, In (LEv (EvSpawn pid)) out /\ vm_id (w_vm w') = pid /\
      fc_process (vm_priv (w_vm w')) = Some (mkCmd pid) /\
      (def_serials (vm_def v) = [] -> console_pty_path (vm_priv (w_vm w')) = None) /\
      (def_serials (vm_def v) <> [] ->
         In (LEv EvOpenPty) out /\ exists name, console_pty_path (vm_priv (w_vm w')) = Some name)) \/
   (z = -1 /\ vm_id (w_vm w') = -1 /\ fc_process (vm_priv (w_vm w')) = None /\
    errors_of out <> [] /\
    forall pid, pid <> -1 -> In (LEv (EvSpawn pid)) out -> In (LEv (EvAbort pid)) out)).
Proof.
  intros E w. destruct_world w. cbn.
  unfold fcStartVMProcess, fcStartVMProcess_error, fcWaitUntilExists, open_file, virCommandAbort.
  destruct (def_serials d) as [|ser rest] eqn:Hser.
  all: run.
  all: zfinish; subst.
  all: split; [reflexivity|]; split; [reflexivity|]; split; [reflexivity|].
  all: first
    [ solve [left; split; [reflexivity|];
      match goal with |- context [Some {| cmd_pid := ?z |}] => exists z end;
      repeat split; intros; try congruence; cbn;
      first [eexists; reflexivity | repeat (first [left; reflexivity | right])]]
    | solve [right; split; [reflexivity|]; split; [reflexivity|]; split; [reflexivity|];
      split; [intros Hc; discriminate Hc|];
      intros pid Hpid Hin; cbn in Hin;
      repeat (destruct Hin as [Hin|Hin];
              [first [discriminate Hin | injection Hin]; intros; subst; try congruence; cbn;
               solve [repeat (first [left; reflexivity | right])]|]);
      destruct Hin] ].
Qed.





(** X15.  [fcDomainUndefineFlags] succeeds exactly on a persistent guest.  It
    removes the guest from the list exactly when the guest is persistent
    and inactive; an active guest stays listed but becomes transient.  A
    transient guest gets the "Cannot undefine transient domain" error and
    no change.  The state, id, definition and private data are never
    touched, and nothing is sent to the VMM. *)
Theorem fcDomainUndefineFlags_outcome : forall w,
  let v := w_vm w in
  let '(z, w', out) := fcDomainUndefineFlags w in
  vm_def (w_vm w') = vm_def v /\ vm_id (w_vm w') = vm_id v /\
  vm_state (w_vm w') = vm_state v /\ vm_priv (w_vm w') = vm_priv v /\
  sent_to_vmm out = [] /\
  (z = 0 <-> vm_persistent v = true) /\ (z = 0 \/ z = -1) /\
  (In (LEv EvListRemove) out <-> vm_persistent v = true /\ virDomainObjIsActive v = false) /\
  (z = 0 -> vm_persistent (w_vm w') = false \/ In (LEv EvListRemove) out) /\
  (z = -1 -> w_vm w' = v /\ out = [LErr VIR_ERR_OPERATION_INVALID "Cannot undefine transient domain"]).
Proof.
  intros w. destruct_world w. unfold fcDomainUndefineFlags, set_persistent. run.
  all: zfinish; subst; repeat split; intros; cbn in *; zfinish; intuition congruence.
Qed.

(** X16.  Undefining a running persistent guest keeps it listed and makes it
    transient; a later successful shutdown then removes it from the list. *)
Theorem fcDomainUndefine_then_Shutdown : forall E w,
  vm_persistent (w_vm w) = true -> virDomainObjIsActive (w_vm w) = true ->
  let r1 := fcDomainUndefineFlags w in
  let r2 := fcDomainShutdownFlags E (world_of r1) in
  val_of r1 = 0 /\ vm_persistent (w_vm (world_of r1)) = false /\
  ~ In (LEv EvListRemove) (out_of r1) /\
  (val_of r2 = 0 -> In (LEv EvListRemove) (out_of r2)).
Proof.
  intros E w Hp Ha. destruct_world w. cbn in Hp, Ha. subst pers.
  unfold fcDomainUndefineFlags, set_persistent, fcDomainShutdownFlags, fcUpdateState,
    virFCMonitorGetStatus, fcInstanceInfoToDomainState, fcStopVM, virFCMonitorShutdownVM,
    virFCJsonActionExec, virCommandWait, fcFirecrackerCleanup.
  run_http.
  all: try congruence.
  all: repeat split; intros; cbn in *; try discriminate; intuition congruence.
Qed.

Lemma fcDomainUndefine_then_Shutdown_witness :
  vm_persistent (w_vm running_d1) = true /\ virDomainObjIsActive (w_vm running_d1) = true /\
  In (LEv EvListRemove)
     (out_of (fcDomainShutdownFlags (env_all_ok "Running")
                (world_of (fcDomainUndefineFlags running_d1)))).
Proof.
  split; [reflexivity|]. split; [reflexivity|].
  refine (proj2 (proj2 (proj2 (fcDomainUndefine_then_Shutdown (env_all_ok "Running") running_d1
            ltac:(reflexivity) ltac:(reflexivity)))) _).
  vm_compute. reflexivity.
Defined.

(** X17.  A suspend that returns 0 found the guest RUNNING, sent exactly the
    status query and the PATCH to "Paused", and left it PAUSED / USER.  When
    the status query does not give RUNNING, suspend returns -1, sends no
    request beyond the query, and leaves the queried state cached. *)
Theorem fcDomainSuspend_outcome : forall E w,
  let sock := socketpath (vm_priv (w_vm w)) in
  let s := val_of (virFCMonitorGetStatus E sock w) in
  let r := fcDomainSuspend E w in
  (val_of r = 0 ->
     s = VIR_DOMAIN_RUNNING /\ vm_state (w_vm (world_of r)) = VIR_DOMAIN_PAUSED /\
     vm_reason (w_vm (world_of r)) = VIR_DOMAIN_PAUSED_USER /\
     sent_to_vmm (out_of r) = [EvGet sock status_url; change_state_request sock "Paused"]) /\
  (s <> VIR_DOMAIN_RUNNING ->
     val_of r = -1 /\ http_requests (out_of r) = [] /\ vm_state (w_vm (world_of r)) = s).
Proof.
  intros E w. destruct_world w.
  unfold fcDomainSuspend, fcUpdateState, virFCMonitorGetStatus, fcInstanceInfoToDomainState,
    virFCMonitorChangeState, virFCJsonActionExec, change_state_request.
  run_http.
  all: merge_env; zfinish; subst; repeat split; intros; try congruence.
Qed.



